(** * Spring controllers of [packages/labs/motion/src/spring.ts]

    A shallow embedding of [SpringController] (one axis) and
    [SpringController2D] (two axes) and the properties their specification
    states about them.

    The controllers are thin wrappers around the [Spring] class of the
    [wobble] package and around a host element.  Both are imported: the
    development takes the [Spring] class as an interface ([WobbleSpring]) and
    proves what the controllers do for every implementation of it.  Where a
    property is about what the spring itself does (validation of the
    configuration, what a retarget does to position and velocity), it is proved
    for [Spring1D], a model of the spring written from the specification. *)

From Stdlib Require Import Floats Bool List.
Import ListNotations.

(** ** Numbers and option objects *)

(** A JavaScript number is an IEEE 754 binary64 value.  Equality [=] on
    [number] is identity of values: one NaN, and [+0] distinct from [-0]. *)
Definition number : Type := float.

(** [interface Position2D { x: number; y: number }] *)
Record Position2D : Type := mkPosition2D { x : number; y : number }.

(** Modelled from the spec: the field list of [WobbleSpringConfig], whose
    declaration is in the imported package: the fields of SpringConfig in
    section 3, and [fromValue], which the comment above [Spring2DConfig]
    names.

    This is the option object handed to the constructors.
    [Partial<WobbleSpringConfig>] makes every field of the spring
    configuration optional; [Spring2DConfig] adds [toPosition] and
    [fromPosition].  An absent (or undefined) property is [None].
    [SpringController2D] hands the object it received on to both axis
    controllers through an object spread, so the object seen by a
    [SpringController] can carry the two extra properties as well: one record
    type describes both. *)
Record SpringOptions : Type := mkOptions {
  fromValue : option number;
  toValue : option number;
  stiffness : option number;
  damping : option number;
  mass : option number;
  initialVelocity : option number;
  overshootClamping : option bool;
  restVelocityThreshold : option number;
  restDisplacementThreshold : option number;
  toPosition : option Position2D;
  fromPosition : option Position2D
}.

(** The object literal [{}]. *)
Definition empty_options : SpringOptions :=
  mkOptions None None None None None None None None None None None.

(** [{...o, toValue: v}] for an object [o], with [v] possibly undefined. *)
Definition with_toValue (v : option number) (o : SpringOptions) : SpringOptions :=
  mkOptions (fromValue o) v (stiffness o) (damping o) (mass o)
            (initialVelocity o) (overshootClamping o)
            (restVelocityThreshold o) (restDisplacementThreshold o)
            (toPosition o) (fromPosition o).

(** [{...o, fromPosition: p}]. *)
Definition with_fromPosition (p : option Position2D) (o : SpringOptions) : SpringOptions :=
  mkOptions (fromValue o) (toValue o) (stiffness o) (damping o) (mass o)
            (initialVelocity o) (overshootClamping o)
            (restVelocityThreshold o) (restDisplacementThreshold o)
            (toPosition o) p.

(** [{...options, toValue: v}] where [options] is an optional parameter:
    spreading [undefined] adds no property. *)
Definition spread_toValue (options : option SpringOptions) (v : number) : SpringOptions :=
  with_toValue (Some v) (match options with Some o => o | None => empty_options end).

(** The object literal [{toValue}] of the [toValue] setter. *)
Definition only_toValue (v : number) : SpringOptions := spread_toValue None v.

(** [options?.f ?? d]: the property [f] of an optional object, [d] when the
    object or the property is missing. *)
Definition optional {A : Type} (f : SpringOptions -> option A) (d : A)
                    (options : option SpringOptions) : A :=
  match options with
  | Some o => match f o with Some v => v | None => d end
  | None => d
  end.


(** ** Exceptions, calls on the collaborators, and the method monad *)

Inductive Exn : Type := ConfigurationError.

(** How a call ends: it returns a value or throws. *)
Inductive completion (A : Type) : Type :=
| Normal (a : A)
| Throw (e : Exn).
Arguments Normal {A} a.
Arguments Throw {A} e.

(** The host element, [ReactiveControllerHost & HTMLElement].  The controllers
    read one property of it, [isConnected]. *)
Record Host : Type := mkHost { isConnected : bool }.

(** The listener the constructor registers with the spring,
    [() => this._host.requestUpdate()]. *)
Inductive Listener : Type := requestUpdate_of_host.

(** Method calls on the spring object, with their arguments. *)
Inductive SpringCall : Type :=
| Call_new (options : option SpringOptions)
| Call_onUpdate (listener : Listener)
| Call_updateConfig (updatedConfig : SpringOptions)
| Call_start
| Call_stop.

(** What one controller does to its collaborators. *)
Inductive Event : Type :=
| Host_addController
| On_spring (c : SpringCall).

(** The events of a two-axis controller name the axis they happen on. *)
Inductive Event2D : Type :=
| OnX (e : Event)
| OnY (e : Event).

(** A method body: it runs on the object [St] it is called on, returns or
    throws, leaves the object as the assignments made up to that point left it
    (a throw undoes nothing), and makes calls on its collaborators, recorded
    in order. *)
Definition M (Ev St A : Type) : Type := St -> completion A * St * list Ev.

Definition ret {Ev St A} (a : A) : M Ev St A :=
  fun s => (Normal a, s, []).

Definition bind {Ev St A B} (m : M Ev St A) (k : A -> M Ev St B) : M Ev St B :=
  fun s =>
    match m s with
    | (Normal a, s1, t1) =>
        match k a s1 with (r, s2, t2) => (r, s2, t1 ++ t2) end
    | (Throw e, s1, t1) => (Throw e, s1, t1)
    end.

Notation "m1 ;; m2" := (bind m1 (fun _ => m2))
  (at level 61, right associativity).
Notation "a <- m1 ;; m2" := (bind m1 (fun a => m2))
  (at level 61, m1 at next level, right associativity).

(** An assignment to a field of the object. *)
Definition assign {Ev St} (f : St -> St) : M Ev St unit :=
  fun s => (Normal tt, f s, []).

(** A method of a member object, run on that member: [sel] reads the member,
    [upd] stores it back, [tag] says on which member its events happen. *)
Definition on_member {Ev Ev' St St' A} (sel : St -> St') (upd : St' -> St -> St)
           (tag : Ev' -> Ev) (m : M Ev' St' A) : M Ev St A :=
  fun s => match m (sel s) with (r, s', t) => (r, upd s' s, map tag t) end.

Definition outcome {Ev St A} (r : completion A * St * list Ev) : completion A :=
  fst (fst r).
Definition object_after {Ev St A} (r : completion A * St * list Ev) : St :=
  snd (fst r).
Definition events {Ev St A} (r : completion A * St * list Ev) : list Ev :=
  snd r.

(** ** The imported [Spring] class *)

(** The part of wobble's [Spring] the controllers use.  A spring reads the
    clock by itself; [now] is the reading a call gets.  The constructor and
    [updateConfig] may throw and then leave no new state. *)
Class WobbleSpring (S : Type) : Type := {
  Spring_new : number -> option SpringOptions -> completion S;
  Spring_onUpdate : Listener -> S -> S;
  Spring_currentValue : S -> number;
  Spring_currentVelocity : S -> number;
  Spring_isAtRest : S -> bool;
  Spring_isAnimating : S -> bool;
  Spring_updateConfig : number -> SpringOptions -> S -> completion S;
  Spring_start : number -> S -> S;
  Spring_stop : number -> S -> S
}.

(** ** [class SpringController] *)

Section Controllers.

Context {S : Type} {W : WobbleSpring S}.

(** The fields of a [SpringController].  [_host] is a reference to the host
    element; the element lives outside the controller and changes without it,
    so each method takes the host as it is at the time of the call. *)
Record SpringController : Type := mkSpringController {
  _spring : S;
  _toValue : number
}.

Definition set__spring (s : S) (c : SpringController) : SpringController :=
  mkSpringController s (_toValue c).
Definition set__toValue (v : number) (c : SpringController) : SpringController :=
  mkSpringController (_spring c) v.

(** A call [this._spring.m(...)] of a method that changes the spring: the
    call is recorded, the spring is replaced by its new state, and a throw of
    the library leaves the spring as it was and propagates. *)
Definition call_spring (c : SpringCall) (m : S -> completion S)
  : M Event SpringController unit :=
  fun o =>
    match m (_spring o) with
    | Normal s' => (Normal tt, set__spring s' o, [On_spring c])
    | Throw e => (Throw e, o, [On_spring c])
    end.

(** [constructor(host, options?)].  The result is the new controller, or the
    exception [new Spring(options)] threw: the constructor has no handler.
<<
    this._host = host;
    host.addController(this);
    this._toValue = options?.toValue ?? 0;
    this._spring = new Spring(options);
    this._spring.onUpdate(() => this._host.requestUpdate());
>> *)
Definition SpringController_new (now : number) (host : Host)
           (options : option SpringOptions)
  : completion SpringController * list Event :=
  let toValue0 := optional toValue 0%float options in
  match Spring_new now options with
  | Normal s =>
      (Normal (mkSpringController (Spring_onUpdate requestUpdate_of_host s) toValue0),
       [Host_addController; On_spring (Call_new options);
        On_spring (Call_onUpdate requestUpdate_of_host)])
  | Throw e =>
      (Throw e, [Host_addController; On_spring (Call_new options)])
  end.

(** [get currentValue()] *)
Definition SpringController_currentValue (c : SpringController) : number :=
  Spring_currentValue (_spring c).

(** [get currentVelocity()] *)
Definition SpringController_currentVelocity (c : SpringController) : number :=
  Spring_currentVelocity (_spring c).

(** [get isAtRest()] *)
Definition SpringController_isAtRest (c : SpringController) : bool :=
  Spring_isAtRest (_spring c).

(** [get isAnimating()] *)
Definition SpringController_isAnimating (c : SpringController) : bool :=
  Spring_isAnimating (_spring c).

(** [get toValue()] *)
Definition SpringController_toValue (c : SpringController) : number :=
  _toValue c.

(** [set toValue(toValue)]
<<
    this._toValue = toValue;
    this._spring.updateConfig({toValue});
    if ((this._host as HTMLElement).isConnected) {
      this._spring.start();
    }
>> *)
Definition SpringController_set_toValue (now : number) (host : Host)
           (v : number) : M Event SpringController unit :=
  assign (set__toValue v) ;;
  call_spring (Call_updateConfig (only_toValue v))
              (Spring_updateConfig now (only_toValue v)) ;;
  if isConnected host
  then call_spring Call_start (fun s => Normal (Spring_start now s))
  else ret tt.

(** [hostConnected() { this._spring.start(); }] *)
Definition SpringController_hostConnected (now : number)
  : M Event SpringController unit :=
  call_spring Call_start (fun s => Normal (Spring_start now s)).

(** [hostDisconnected() { this._spring.stop(); }] *)
Definition SpringController_hostDisconnected (now : number)
  : M Event SpringController unit :=
  call_spring Call_stop (fun s => Normal (Spring_stop now s)).

(** ** [class SpringController2D] *)

Record SpringController2D : Type := mkSpringController2D {
  _xSpring : SpringController;
  _ySpring : SpringController;
  _toPosition : Position2D
}.

Definition set__xSpring (a : SpringController) (c : SpringController2D) :=
  mkSpringController2D a (_ySpring c) (_toPosition c).
Definition set__ySpring (a : SpringController) (c : SpringController2D) :=
  mkSpringController2D (_xSpring c) a (_toPosition c).
Definition set__toPosition (p : Position2D) (c : SpringController2D) :=
  mkSpringController2D (_xSpring c) (_ySpring c) p.

(** A method of [this._xSpring], and one of [this._ySpring]. *)
Definition on_x {A} (m : M Event SpringController A) : M Event2D SpringController2D A :=
  on_member _xSpring set__xSpring OnX m.
Definition on_y {A} (m : M Event SpringController A) : M Event2D SpringController2D A :=
  on_member _ySpring set__ySpring OnY m.

(** The option object each axis controller is constructed with:
    [{...options, toValue: this._toPosition.x}], and the same with [y]. *)
Definition xAxis_options (options : option SpringOptions) : SpringOptions :=
  spread_toValue options (x (optional toPosition (mkPosition2D 0%float 0%float) options)).

(** [constructor(host, options?)].  Both axis controllers get the same host.
    An exception of the first [new SpringController] ends the constructor
    before the second is reached.
<<
    this._toPosition = options?.toPosition ?? {x: 0, y: 0};
    this._xSpring = new SpringController(host, {
      ...options,
      toValue: this._toPosition.x,
    });
    this._ySpring = new SpringController(host, {
      ...options,
      toValue: this._toPosition.y,
    });
>> *)
Definition SpringController2D_new (now : number) (host : Host)
           (options : option SpringOptions)
  : completion SpringController2D * list Event2D :=
  let toPosition0 := optional toPosition (mkPosition2D 0%float 0%float) options in
  match SpringController_new now host
          (Some (spread_toValue options (x toPosition0))) with
  | (Throw e, tx) => (Throw e, map OnX tx)
  | (Normal xs, tx) =>
      match SpringController_new now host
              (Some (spread_toValue options (y toPosition0))) with
      | (Throw e, ty) => (Throw e, map OnX tx ++ map OnY ty)
      | (Normal ys, ty) =>
          (Normal (mkSpringController2D xs ys toPosition0),
           map OnX tx ++ map OnY ty)
      end
  end.

(** [get currentPosition()] *)
Definition SpringController2D_currentPosition (c : SpringController2D) : Position2D :=
  mkPosition2D (SpringController_currentValue (_xSpring c))
               (SpringController_currentValue (_ySpring c)).

(** The operator [**] of the engine; ECMAScript leaves the rounding of its
    result to the implementation, so it is taken as given. *)
Variable exponentiate : number -> number -> number.

(** [get currentVelocity()]
<<
    const dx = this._xSpring.currentVelocity;
    const dy = this._ySpring.currentVelocity;
    return Math.sqrt(dx ** 2 + dy ** 2);
>> *)
Definition SpringController2D_currentVelocity (c : SpringController2D) : number :=
  let dx := SpringController_currentVelocity (_xSpring c) in
  let dy := SpringController_currentVelocity (_ySpring c) in
  PrimFloat.sqrt (exponentiate dx 2 + exponentiate dy 2)%float.

(** [get isAtRest()] *)
Definition SpringController2D_isAtRest (c : SpringController2D) : bool :=
  SpringController_isAtRest (_xSpring c) && SpringController_isAtRest (_ySpring c).

(** [get isAnimating()] *)
Definition SpringController2D_isAnimating (c : SpringController2D) : bool :=
  SpringController_isAnimating (_xSpring c) || SpringController_isAnimating (_ySpring c).

(** [get toPosition()] *)
Definition SpringController2D_toPosition (c : SpringController2D) : Position2D :=
  _toPosition c.

(** [set toPosition(v)]
<<
    this._toPosition = v;
    this._xSpring.toValue = v.x;
    this._ySpring.toValue = v.y;
>> *)
Definition SpringController2D_set_toPosition (now : number) (host : Host)
           (v : Position2D) : M Event2D SpringController2D unit :=
  assign (set__toPosition v) ;;
  on_x (SpringController_set_toValue now host (x v)) ;;
  on_y (SpringController_set_toValue now host (y v)).

(** [hostConnected()] *)
Definition SpringController2D_hostConnected (now : number)
  : M Event2D SpringController2D unit :=
  on_x (SpringController_hostConnected now) ;;
  on_y (SpringController_hostConnected now).

(** [hostDisconnected()] *)
Definition SpringController2D_hostDisconnected (now : number)
  : M Event2D SpringController2D unit :=
  on_x (SpringController_hostDisconnected now) ;;
  on_y (SpringController_hostDisconnected now).

End Controllers.

Arguments SpringController S : clear implicits.
Arguments SpringController2D S : clear implicits.

(** ** A model of the spring, from the specification *)

(** Modelled from the spec: status of a spring (section 4.1, state machine).
    [Idle] before the first start and after natural rest, [Running] while
    stepped, [Stopped] after an explicit stop. *)
Inductive Status : Type := Idle | Running | Stopped.

(** Modelled from the spec: SpringConfig of section 3, all fields present. *)
Record SpringConfig : Type := mkConfig {
  cfg_mass : number;
  cfg_stiffness : number;
  cfg_damping : number;
  cfg_initialVelocity : number;
  cfg_overshootClamping : bool;
  cfg_restDisplacementThreshold : number;
  cfg_restVelocityThreshold : number;
  cfg_toValue : number
}.

(** Modelled from the spec: SpringState and Spring1D of section 3: position,
    velocity, the current target (toValue there), the status, the last-step
    timestamp (none before the first start), the configuration, and the
    update notifier. *)
Record Spring1D : Type := mkSpring1D {
  position : number;
  velocity : number;
  target : number;
  status : Status;
  lastStep : option number;
  config : SpringConfig;
  notifier : option Listener
}.

(** The values the library gives to the fields an option object leaves out,
    mass apart: the specification does not fix them, so they are a parameter
    of the model. *)
Record SpringDefaults : Type := mkDefaults {
  default_fromValue : number;
  default_toValue : number;
  default_stiffness : number;
  default_damping : number;
  default_initialVelocity : number;
  default_overshootClamping : bool;
  default_restDisplacementThreshold : number;
  default_restVelocityThreshold : number
}.

(** Modelled from the spec: the configuration of a spring constructed with
    no options: mass 1 (section 3), the other fields from the defaults. *)
Definition default_config (d : SpringDefaults) : SpringConfig :=
  mkConfig 1%float (default_stiffness d) (default_damping d)
           (default_initialVelocity d) (default_overshootClamping d)
           (default_restDisplacementThreshold d) (default_restVelocityThreshold d)
           (default_toValue d).

Definition or_default {A : Type} (o : option A) (d : A) : A :=
  match o with Some v => v | None => d end.

(** Modelled from the spec: a partial update laid over a configuration
    (section 6, configuration input): the fields the update has replace those
    of the configuration. *)
Definition merge_config (u : SpringOptions) (c : SpringConfig) : SpringConfig :=
  mkConfig (or_default (mass u) (cfg_mass c))
           (or_default (stiffness u) (cfg_stiffness c))
           (or_default (damping u) (cfg_damping c))
           (or_default (initialVelocity u) (cfg_initialVelocity c))
           (or_default (overshootClamping u) (cfg_overshootClamping c))
           (or_default (restDisplacementThreshold u) (cfg_restDisplacementThreshold c))
           (or_default (restVelocityThreshold u) (cfg_restVelocityThreshold c))
           (or_default (toValue u) (cfg_toValue c)).

(** Modelled from the spec: the invariant of section 3: mass and stiffness
    strictly positive, damping and both thresholds non-negative. *)
Definition config_valid (c : SpringConfig) : bool :=
  ((0 <? cfg_mass c) && (0 <? cfg_stiffness c) && (0 <=? cfg_damping c)
   && (0 <=? cfg_restDisplacementThreshold c)
   && (0 <=? cfg_restVelocityThreshold c))%float.

(** Modelled from the spec: construction (sections 3 and 7).  An invalid
    configuration fails at once; otherwise the spring is idle at its initial
    position with its initial velocity. *)
Definition Spring1D_new (d : SpringDefaults) (options : option SpringOptions)
  : completion Spring1D :=
  let o := match options with Some o => o | None => empty_options end in
  let c := merge_config o (default_config d) in
  if config_valid c
  then Normal (mkSpring1D (or_default (fromValue o) (default_fromValue d))
                          (cfg_initialVelocity c) (cfg_toValue c)
                          Idle None c None)
  else Throw ConfigurationError.

(** Modelled from the spec: the update notifier is a single registered sink
    (section 9). *)
Definition Spring1D_onUpdate (l : Listener) (s : Spring1D) : Spring1D :=
  mkSpring1D (position s) (velocity s) (target s) (status s) (lastStep s)
             (config s) (Some l).

(** Modelled from the spec: reconfiguration (sections 4.1, 7 and 9).  The
    merged configuration is validated before anything is committed; a valid
    one replaces the configuration and the target, and position and velocity
    stay as they are. *)
Definition Spring1D_updateConfig (u : SpringOptions) (s : Spring1D)
  : completion Spring1D :=
  let c := merge_config u (config s) in
  if config_valid c
  then Normal (mkSpring1D (position s) (velocity s) (cfg_toValue c) (status s)
                          (lastStep s) c (notifier s))
  else Throw ConfigurationError.

(** Modelled from the spec: start (section 4.1): Idle or Stopped becomes
    Running and the last-step timestamp becomes the clock reading; nothing
    happens to a running spring. *)
Definition Spring1D_start (now : number) (s : Spring1D) : Spring1D :=
  match status s with
  | Running => s
  | Idle | Stopped =>
      mkSpring1D (position s) (velocity s) (target s) Running (Some now)
                 (config s) (notifier s)
  end.

(** Modelled from the spec: stop (section 4.1): Running becomes Stopped, the
    spring stays where it is. *)
Definition Spring1D_stop (s : Spring1D) : Spring1D :=
  match status s with
  | Running =>
      mkSpring1D (position s) (velocity s) (target s) Stopped (lastStep s)
                 (config s) (notifier s)
  | Idle | Stopped => s
  end.

(** Modelled from the spec: a spring is at rest when its displacement from
    the target and its velocity are within the thresholds (glossary). *)
Definition Spring1D_isAtRest (s : Spring1D) : bool :=
  ((abs (position s - target s) <=? cfg_restDisplacementThreshold (config s))
   && (abs (velocity s) <=? cfg_restVelocityThreshold (config s)))%float.

(** Modelled from the spec: isAnimating is true iff the state is Running. *)
Definition Spring1D_isAnimating (s : Spring1D) : bool :=
  match status s with Running => true | Idle | Stopped => false end.

(** The model as an implementation of the library interface. *)
Definition spring_model (d : SpringDefaults) : WobbleSpring Spring1D :=
  {| Spring_new := fun _ options => Spring1D_new d options;
     Spring_onUpdate := Spring1D_onUpdate;
     Spring_currentValue := position;
     Spring_currentVelocity := velocity;
     Spring_isAtRest := Spring1D_isAtRest;
     Spring_isAnimating := Spring1D_isAnimating;
     Spring_updateConfig := fun _ u s => Spring1D_updateConfig u s;
     Spring_start := Spring1D_start;
     Spring_stop := fun _ s => Spring1D_stop s |}.

(** The parameters of the scenario of section 8: stiffness 210, damping 20,
    target 0, starting at 100 with no velocity. *)
Definition scenario_defaults : SpringDefaults :=
  mkDefaults 100%float 0%float 210%float 20%float 0%float false
             0.0009765625%float 0.0009765625%float.

(** A connected and a disconnected host. *)
Definition attached : Host := mkHost true.
Definition detached : Host := mkHost false.

(** ** Vocabulary of the properties *)

(** An optional construction argument that leaves the property [f] out: no
    option object at all, or one without [f]. *)
Definition omits {A : Type} (f : SpringOptions -> option A)
           (options : option SpringOptions) : Prop :=
  match options with
  | Some o => f o = None
  | None => True
  end.

(** A supplied field that is [<= 0], and one that is [< 0], as JavaScript
    compares numbers (NaN is neither). *)
Definition non_positive (f : option number) : bool :=
  match f with Some v => (v <=? 0)%float | None => false end.
Definition negative (f : option number) : bool :=
  match f with Some v => (v <? 0)%float | None => false end.

(** An option object with a non-positive mass or stiffness, or a negative
    damping or rest threshold. *)
Definition invalid_options (o : SpringOptions) : bool :=
  non_positive (mass o) || non_positive (stiffness o) || negative (damping o)
  || negative (restDisplacementThreshold o) || negative (restVelocityThreshold o).

(** Some option objects and states used in the examples. *)
Definition to_100 : SpringOptions := with_toValue (Some 100%float) empty_options.

Definition with_mass (m : option number) (o : SpringOptions) : SpringOptions :=
  mkOptions (fromValue o) (toValue o) (stiffness o) (damping o) m
            (initialVelocity o) (overshootClamping o)
            (restVelocityThreshold o) (restDisplacementThreshold o)
            (toPosition o) (fromPosition o).

Definition with_damping (c : option number) (o : SpringOptions) : SpringOptions :=
  mkOptions (fromValue o) (toValue o) (stiffness o) c (mass o)
            (initialVelocity o) (overshootClamping o)
            (restVelocityThreshold o) (restDisplacementThreshold o)
            (toPosition o) (fromPosition o).

(** A spring in flight from 0 towards 100: at 40, moving at 0.5 per ms. *)
Definition in_flight : Spring1D :=
  mkSpring1D 40%float 0.5%float 100%float Running (Some 1000%float)
             (merge_config to_100 (default_config scenario_defaults))
             (Some requestUpdate_of_host).

(** A spring that settled on its target 100. *)
Definition settled : Spring1D :=
  mkSpring1D 100%float 0%float 100%float Idle (Some 1000%float)
             (merge_config to_100 (default_config scenario_defaults))
             (Some requestUpdate_of_host).

(** A two-axis controller whose x axis is in flight and whose y axis has
    settled. *)
Definition x_in_flight_y_settled : SpringController2D Spring1D :=
  mkSpringController2D (mkSpringController in_flight 100%float)
                       (mkSpringController settled 100%float)
                       (mkPosition2D 100%float 100%float).

(** [{toPosition: {x: 30, y: 60}}], the options of a two-axis controller that
    give a target and no starting position. *)
Definition towards_30_60 : SpringOptions :=
  mkOptions None None None None None None None None None
            (Some (mkPosition2D 30%float 60%float)) None.

(** What the model constructs from no options at all, with the defaults of
    the scenario: an idle spring at 100 whose target is the default one. *)
Definition fresh_spring : Spring1D :=
  mkSpring1D 100%float 0%float 0%float Idle None
             (default_config scenario_defaults) (Some requestUpdate_of_host).

(** What the model constructs, with the defaults of the scenario, from
    options that give the target [t] and nothing about the spring: an idle
    spring at 100 with target [t] and no listener yet. *)
Definition constructed_towards (t : number) : Spring1D :=
  mkSpring1D 100%float 0%float t Idle None
             (merge_config (only_toValue t) (default_config scenario_defaults))
             None.

(** The two-axis controller made of two such springs, listeners registered,
    with the target position [p]. *)
Definition two_axis_towards (p : Position2D) : SpringController2D Spring1D :=
  mkSpringController2D
    (mkSpringController
       (Spring1D_onUpdate requestUpdate_of_host (constructed_towards (x p))) (x p))
    (mkSpringController
       (Spring1D_onUpdate requestUpdate_of_host (constructed_towards (y p))) (y p))
    p.

(** ** Sequences of calls on a controller *)

(** Calls made one after the other on the same object.  A call that throws
    keeps what it did to the object and does not prevent the next call: the
    result lists how each call ended, the object after the last one, and all
    calls made on the collaborators. *)
Fixpoint run_calls {Ev St : Type} (l : list (M Ev St unit)) (s : St)
  : list (completion unit) * St * list Ev :=
  match l with
  | [] => ([], s, [])
  | m :: l' =>
      match m s with
      | (r, s1, t1) =>
          match run_calls l' s1 with
          | (rs, s2, t2) => (r :: rs, s2, t1 ++ t2)
          end
      end
  end.

(** What user code and the host can call on a [SpringController] once it is
    constructed: the [toValue] setter and the two lifecycle hooks. *)
Inductive Action : Type :=
| Set_toValue (now : number) (host : Host) (v : number)
| HostConnected (now : number)
| HostDisconnected (now : number).

(** The same for a [SpringController2D]. *)
Inductive Action2D : Type :=
| Set_toPosition (now : number) (host : Host) (p : Position2D)
| HostConnected2D (now : number)
| HostDisconnected2D (now : number).

(** The value of the last [toValue] assignment of a sequence, [d] if there is
    none; and the same for [toPosition]. *)
Fixpoint last_toValue (d : number) (l : list Action) : number :=
  match l with
  | [] => d
  | Set_toValue _ _ v :: l' => last_toValue v l'
  | _ :: l' => last_toValue d l'
  end.

Fixpoint last_toPosition (d : Position2D) (l : list Action2D) : Position2D :=
  match l with
  | [] => d
  | Set_toPosition _ _ p :: l' => last_toPosition p l'
  | _ :: l' => last_toPosition d l'
  end.

(** What a call on a two-axis controller asks of one axis: a [toPosition]
    assignment is a [toValue] assignment of the component, a hook is the same
    hook. *)
Definition x_part (a : Action2D) : Action :=
  match a with
  | Set_toPosition now host p => Set_toValue now host (x p)
  | HostConnected2D now => HostConnected now
  | HostDisconnected2D now => HostDisconnected now
  end.

Definition y_part (a : Action2D) : Action :=
  match a with
  | Set_toPosition now host p => Set_toValue now host (y p)
  | HostConnected2D now => HostConnected now
  | HostDisconnected2D now => HostDisconnected now
  end.



Section CallSequences.

Context {S : Type} {W : WobbleSpring S}.

Definition act (a : Action) : M Event (SpringController S) unit :=
  match a with
  | Set_toValue now host v => SpringController_set_toValue now host v
  | HostConnected now => SpringController_hostConnected now
  | HostDisconnected now => SpringController_hostDisconnected now
  end.

Definition act2D (a : Action2D) : M Event2D (SpringController2D S) unit :=
  match a with
  | Set_toPosition now host p => SpringController2D_set_toPosition now host p
  | HostConnected2D now => SpringController2D_hostConnected now
  | HostDisconnected2D now => SpringController2D_hostDisconnected now
  end.

Definition run_actions (l : list Action) (c : SpringController S) :=
  run_calls (map act l) c.

Definition run_actions2D (l : list Action2D) (c : SpringController2D S) :=
  run_calls (map act2D l) c.

(** The target of each axis controller is the component of the stored target
    position. *)
Definition x_axis_agrees (c : SpringController2D S) : Prop :=
  SpringController_toValue (_xSpring c) = x (SpringController2D_toPosition c).
Definition y_axis_agrees (c : SpringController2D S) : Prop :=
  SpringController_toValue (_ySpring c) = y (SpringController2D_toPosition c).

End CallSequences.

(** A state of the spring model whose configuration has mass 0: the model
    refuses every reconfiguration of it. *)
Definition massless : Spring1D :=
  mkSpring1D 40%float 0.5%float 100%float Running (Some 1000%float)
             (mkConfig 0%float 210%float 20%float 0%float false
                       0.0009765625%float 0.0009765625%float 100%float)
             (Some requestUpdate_of_host).

(** A two-axis controller whose x axis is that spring. *)
Definition x_massless : SpringController2D Spring1D :=
  mkSpringController2D (mkSpringController massless 100%float)
                       (mkSpringController settled 100%float)
                       (mkPosition2D 100%float 100%float).

(** A retarget while detached, the host connecting, a retarget while
    attached, the host disconnecting. *)
Definition some_actions : list Action :=
  [Set_toValue 1016%float detached 0%float; HostConnected 1032%float;
   Set_toValue 1048%float attached 50%float; HostDisconnected 1064%float].

Definition some_actions2D : list Action2D :=
  [Set_toPosition 1016%float detached (mkPosition2D 0%float 50%float);
   HostConnected2D 1032%float;
   Set_toPosition 1048%float attached (mkPosition2D 10%float 20%float);
   HostDisconnected2D 1064%float].

(** ** Properties of the controllers, for every spring implementation *)

Section ControllerProperties.

Context {S : Type} {W : WobbleSpring S}.

(** C1.  [isAtRest] of a two-axis controller is true exactly when both axis
    controllers are at rest, and [isAnimating] is true exactly when at least
    one of them is animating. *)
Theorem rest_needs_both_axes_animating_needs_one (c : SpringController2D S) :
  (SpringController2D_isAtRest c = true <->
     SpringController_isAtRest (_xSpring c) = true /\
     SpringController_isAtRest (_ySpring c) = true)
  /\
  (SpringController2D_isAnimating c = true <->
     SpringController_isAnimating (_xSpring c) = true \/
     SpringController_isAnimating (_ySpring c) = true).
Proof.
  unfold SpringController2D_isAtRest, SpringController2D_isAnimating.
  split.
  - apply andb_true_iff.
  - apply orb_true_iff.
Qed.

(** C5.  [currentPosition] is the pair of the two axes' current values: its
    [x] is what the spring of the x axis reports, its [y] what the spring of
    the y axis reports. *)
Theorem currentPosition_is_pair_of_axis_values (c : SpringController2D S) :
  SpringController2D_currentPosition c =
    mkPosition2D (SpringController_currentValue (_xSpring c))
                 (SpringController_currentValue (_ySpring c))
  /\ x (SpringController2D_currentPosition c) = Spring_currentValue (_spring (_xSpring c))
  /\ y (SpringController2D_currentPosition c) = Spring_currentValue (_spring (_ySpring c)).
Proof. repeat split. Qed.

(** C6.  The scalar [currentVelocity] of a two-axis controller is the square
    root of the sum of the squares of the two axis velocities, computed in
    double precision with the operator of the engine for the squares; the
    axis velocities are those the two springs report. *)
Theorem currentVelocity_is_euclidean_norm
        (exponentiate : number -> number -> number) (c : SpringController2D S) :
  SpringController2D_currentVelocity exponentiate c =
    PrimFloat.sqrt
      (exponentiate (SpringController_currentVelocity (_xSpring c)) 2
       + exponentiate (SpringController_currentVelocity (_ySpring c)) 2)%float
  /\
  SpringController2D_currentVelocity exponentiate c =
    PrimFloat.sqrt
      (exponentiate (Spring_currentVelocity (_spring (_xSpring c))) 2
       + exponentiate (Spring_currentVelocity (_spring (_ySpring c))) 2)%float.
Proof.
  unfold SpringController2D_currentVelocity, SpringController_currentVelocity.
  split; reflexivity.
Qed.

(** C7.  [hostConnected] calls [start()] on the spring and nothing else,
    [hostDisconnected] calls [stop()] and nothing else; the hooks of a
    two-axis controller run the same hook on the x axis and then on the y
    axis. *)
Theorem lifecycle_hooks_start_and_stop
        (now : number) (c : SpringController S) (c2 : SpringController2D S) :
  SpringController_hostConnected now c =
    (Normal tt, set__spring (Spring_start now (_spring c)) c, [On_spring Call_start])
  /\
  SpringController_hostDisconnected now c =
    (Normal tt, set__spring (Spring_stop now (_spring c)) c, [On_spring Call_stop])
  /\
  SpringController2D_hostConnected now c2 =
    (Normal tt,
     mkSpringController2D
       (object_after (SpringController_hostConnected now (_xSpring c2)))
       (object_after (SpringController_hostConnected now (_ySpring c2)))
       (_toPosition c2),
     [OnX (On_spring Call_start); OnY (On_spring Call_start)])
  /\
  SpringController2D_hostDisconnected now c2 =
    (Normal tt,
     mkSpringController2D
       (object_after (SpringController_hostDisconnected now (_xSpring c2)))
       (object_after (SpringController_hostDisconnected now (_ySpring c2)))
       (_toPosition c2),
     [OnX (On_spring Call_stop); OnY (On_spring Call_stop)]).
Proof. repeat split. Qed.

(** The object the [toValue] setter leaves has [v] as its [_toValue], also
    when the library throws. *)
Lemma toValue_setter_target
      (now : number) (host : Host) (v : number) (c : SpringController S) :
  SpringController_toValue
    (object_after (SpringController_set_toValue now host v c)) = v.
Proof.
  unfold SpringController_set_toValue, SpringController_toValue, bind, assign,
    call_spring, ret, object_after.
  cbn [_spring set__toValue set__spring _toValue fst snd].
  destruct (Spring_updateConfig now (only_toValue v) (_spring c));
    destruct (isConnected host); reflexivity.
Qed.


(** C4.  The [toPosition] setter stores [p], so that the getter returns
    exactly [p], whatever the axes report; it then runs the [toValue] setter
    of the x axis with [p.x] and, when that one returns, the [toValue] setter
    of the y axis with [p.y].  Afterwards the [toValue] of the x axis is
    [p.x] and that of the y axis is [p.y]. *)
Theorem toPosition_setter_stores_and_fans_out
        (now : number) (host : Host) (p : Position2D) (c : SpringController2D S) :
  let r := SpringController2D_set_toPosition now host p c in
  let rx := SpringController_set_toValue now host (x p) (_xSpring c) in
  let ry := SpringController_set_toValue now host (y p) (_ySpring c) in
  SpringController2D_toPosition (object_after r) = p
  /\ _xSpring (object_after r) = object_after rx
  /\ SpringController_toValue (_xSpring (object_after r)) = x p
  /\ (outcome rx = Normal tt ->
      outcome r = outcome ry
      /\ _ySpring (object_after r) = object_after ry
      /\ SpringController_toValue (_ySpring (object_after r)) = y p
      /\ events r = map OnX (events rx) ++ map OnY (events ry)).
Proof.
  pose proof (toValue_setter_target now host (x p) (_xSpring c)) as Tx.
  pose proof (toValue_setter_target now host (y p) (_ySpring c)) as Ty.
  cbv zeta.
  unfold SpringController2D_set_toPosition, on_x, on_y, on_member, bind, assign,
    SpringController2D_toPosition, object_after, events, outcome in *.
  cbn [_xSpring _ySpring _toPosition set__toPosition set__xSpring set__ySpring].
  destruct (SpringController_set_toValue now host (x p) (_xSpring c))
    as [[ox cx] tx].
  cbn [fst snd] in Tx. destruct ox as [[] | e].
  - cbn [_xSpring _ySpring _toPosition set__toPosition set__xSpring set__ySpring].
    destruct (SpringController_set_toValue now host (y p) (_ySpring c))
      as [[oy cy] ty].
    cbn [fst snd] in Ty. cbn. repeat split; assumption.
  - cbn [fst snd _xSpring _ySpring _toPosition].
    split; [reflexivity | split; [reflexivity | split; [assumption |]]].
    intros E. discriminate E.
Qed.




(** C10.  A [SpringController] constructed without a [toValue] has 0 as its
    [toValue]; a [SpringController2D] constructed without a [toPosition] has
    [{x: 0, y: 0}] as its [toPosition], and both its axes have 0 as their
    [toValue].  The constructors return such a controller whenever
    [new Spring] returns: for the options as they are in a [SpringController],
    for the options with [toValue: 0] on both axes of a
    [SpringController2D]. *)
Theorem default_target_is_zero
        (now : number) (host : Host) (options : option SpringOptions) :
  (omits toValue options ->
   forall (c : SpringController S) tr,
     SpringController_new now host options = (Normal c, tr) ->
     SpringController_toValue c = 0%float)
  /\
  (omits toPosition options ->
   forall (c2 : SpringController2D S) tr,
     SpringController2D_new now host options = (Normal c2, tr) ->
     SpringController2D_toPosition c2 = mkPosition2D 0%float 0%float
     /\ SpringController_toValue (_xSpring c2) = 0%float
     /\ SpringController_toValue (_ySpring c2) = 0%float)
  /\
  (omits toValue options ->
   forall s : S,
     Spring_new now options = Normal s ->
     SpringController_new now host options =
       (Normal (mkSpringController (Spring_onUpdate requestUpdate_of_host s) 0%float),
        [Host_addController; On_spring (Call_new options);
         On_spring (Call_onUpdate requestUpdate_of_host)])
     /\ SpringController_toValue
          (mkSpringController (Spring_onUpdate requestUpdate_of_host s) 0%float)
        = 0%float)
  /\
  (omits toPosition options ->
   forall s : S,
     Spring_new now (Some (spread_toValue options 0%float)) = Normal s ->
     SpringController2D_new now host options =
       (Normal
          (mkSpringController2D
             (mkSpringController (Spring_onUpdate requestUpdate_of_host s) 0%float)
             (mkSpringController (Spring_onUpdate requestUpdate_of_host s) 0%float)
             (mkPosition2D 0%float 0%float)),
        [OnX Host_addController;
         OnX (On_spring (Call_new (Some (spread_toValue options 0%float))));
         OnX (On_spring (Call_onUpdate requestUpdate_of_host));
         OnY Host_addController;
         OnY (On_spring (Call_new (Some (spread_toValue options 0%float))));
         OnY (On_spring (Call_onUpdate requestUpdate_of_host))])
     /\ SpringController2D_toPosition
          (mkSpringController2D
             (mkSpringController (Spring_onUpdate requestUpdate_of_host s) 0%float)
             (mkSpringController (Spring_onUpdate requestUpdate_of_host s) 0%float)
             (mkPosition2D 0%float 0%float))
        = mkPosition2D 0%float 0%float).
Proof.
  assert (Etv : omits toValue options -> optional toValue 0%float options = 0%float).
  { intros Ho. destruct options as [o |]; cbn in *; [rewrite Ho |]; reflexivity. }
  assert (Etp : omits toPosition options ->
                optional toPosition (mkPosition2D 0%float 0%float) options
                = mkPosition2D 0%float 0%float).
  { intros Ho. destruct options as [o |]; cbn in *; [rewrite Ho |]; reflexivity. }
  split; [| split; [| split]].
  - intros Ho c tr. unfold SpringController_new.
    destruct (Spring_new now options); [| discriminate].
    intros E. inversion E. cbn. apply Etv, Ho.
  - intros Ho c2 tr. unfold SpringController2D_new, SpringController_new.
    rewrite (Etp Ho). cbn [x y].
    destruct (Spring_new now (Some (spread_toValue options 0%float)));
      [| discriminate].
    intros E. inversion E. repeat split.
  - intros Ho s Hs. unfold SpringController_new.
    rewrite Hs, (Etv Ho). split; reflexivity.
  - intros Ho s Hs. unfold SpringController2D_new, SpringController_new.
    rewrite (Etp Ho). cbn [x y]. rewrite Hs. split; reflexivity.
Qed.

(** Whatever a retarget and a start of the library keep, the [toValue]
    setter keeps: the controller touches the spring through these two calls
    only. *)
Lemma toValue_setter_keeps {A : Type} (f : S -> A)
      (now : number) (host : Host) (v : number) (c : SpringController S) :
  (forall s s', Spring_updateConfig now (only_toValue v) s = Normal s' -> f s' = f s) ->
  (forall s, f (Spring_start now s) = f s) ->
  f (_spring (object_after (SpringController_set_toValue now host v c))) =
  f (_spring c).
Proof.
  intros Hu Hs.
  unfold SpringController_set_toValue, bind, assign, call_spring, ret, object_after.
  cbn [_spring set__toValue set__spring _toValue fst snd].
  destruct (Spring_updateConfig now (only_toValue v) (_spring c)) as [s' |] eqn:E;
    [| reflexivity].
  destruct (isConnected host); cbn; [rewrite Hs |]; eauto.
Qed.

End ControllerProperties.

(** ** Properties of the spring model *)

(** Comparisons of doubles with zero: [m <= 0] excludes [0 < m], and [m < 0]
    excludes [0 <= m]. *)
Lemma leb_zero_not_positive (m : number) :
  (m <=? 0)%float = true -> (0 <? m)%float = false.
Proof.
  rewrite leb_spec, ltb_spec.
  change (Prim2SF 0) with (S754_zero false).
  destruct (Prim2SF m) as [s | s | | s mm e]; try destruct s; cbn; congruence.
Qed.

Lemma ltb_zero_not_non_negative (m : number) :
  (m <? 0)%float = true -> (0 <=? m)%float = false.
Proof.
  rewrite leb_spec, ltb_spec.
  change (Prim2SF 0) with (S754_zero false).
  destruct (Prim2SF m) as [s | s | | s mm e]; try destruct s; cbn; congruence.
Qed.

(** An invalid option object makes the merged configuration invalid, whatever
    it is laid over. *)
Lemma invalid_options_not_valid (o : SpringOptions) (c : SpringConfig) :
  invalid_options o = true -> config_valid (merge_config o c) = false.
Proof.
  unfold invalid_options, config_valid, merge_config, non_positive, negative.
  cbn [cfg_mass cfg_stiffness cfg_damping cfg_restDisplacementThreshold
       cfg_restVelocityThreshold].
  rewrite !orb_true_iff.
  intros [[[[H | H] | H] | H] | H];
    [ destruct (mass o) | destruct (stiffness o) | destruct (damping o)
    | destruct (restDisplacementThreshold o)
    | destruct (restVelocityThreshold o) ];
    try discriminate H; cbn [or_default];
    first [ rewrite (leb_zero_not_positive _ H)
          | rewrite (ltb_zero_not_non_negative _ H) ];
    rewrite ?andb_false_r; reflexivity.
Qed.

(** The axis options are as invalid as the object they are spread from. *)
Lemma invalid_options_spread (o : SpringOptions) (v : number) :
  invalid_options (spread_toValue (Some o) v) = invalid_options o.
Proof. reflexivity. Qed.

(** A retarget of a spring whose configuration is valid returns: the new
    target is the one given, everything but target and configured target is
    as before. *)
Lemma Spring1D_retarget_returns (v : number) (s : Spring1D) :
  config_valid (config s) = true ->
  Spring1D_updateConfig (only_toValue v) s =
    Normal (mkSpring1D (position s) (velocity s) v (status s) (lastStep s)
                       (merge_config (only_toValue v) (config s)) (notifier s))
  /\ config_valid (merge_config (only_toValue v) (config s)) = true.
Proof.
  intros H. unfold Spring1D_updateConfig.
  assert (E : config_valid (merge_config (only_toValue v) (config s)) = true)
    by exact H.
  rewrite E. split; reflexivity.
Qed.

(** Every spring the model constructs has a valid configuration, and the
    calls of the controllers keep it valid. *)
Lemma Spring1D_new_valid (d : SpringDefaults) (options : option SpringOptions)
      (s : Spring1D) :
  Spring1D_new d options = Normal s -> config_valid (config s) = true.
Proof.
  unfold Spring1D_new.
  destruct (config_valid (merge_config _ (default_config d))) eqn:E;
    [| discriminate].
  intros H. inversion H. exact E.
Qed.

Lemma Spring1D_calls_keep_valid (now : number) (l : Listener) (s : Spring1D) :
  config_valid (config s) = true ->
  config_valid (config (Spring1D_start now s)) = true
  /\ config_valid (config (Spring1D_stop s)) = true
  /\ config_valid (config (Spring1D_onUpdate l s)) = true.
Proof.
  intros H. unfold Spring1D_start, Spring1D_stop.
  destruct (status s); repeat split; exact H.
Qed.

(** Position and velocity after a reconfiguration and after a start. *)
Lemma Spring1D_updateConfig_kinetic (u : SpringOptions) (s s' : Spring1D) :
  Spring1D_updateConfig u s = Normal s' ->
  (position s', velocity s') = (position s, velocity s).
Proof.
  unfold Spring1D_updateConfig.
  destruct (config_valid _); [| discriminate].
  intros H. inversion H. reflexivity.
Qed.

Lemma Spring1D_start_kinetic (now : number) (s : Spring1D) :
  (position (Spring1D_start now s), velocity (Spring1D_start now s)) =
  (position s, velocity s).
Proof. unfold Spring1D_start. destruct (status s); reflexivity. Qed.

(** C3.  With the spring of the specification, the [toValue] setter leaves
    [currentValue] and [currentVelocity] as they were, in every state of the
    spring, attached or not. *)
Theorem retarget_keeps_position_and_velocity
        (d : SpringDefaults) (now : number) (host : Host) (v : number)
        (c : SpringController Spring1D) :
  let c' := object_after
              (SpringController_set_toValue (W := spring_model d) now host v c) in
  SpringController_currentValue (W := spring_model d) c' =
    SpringController_currentValue (W := spring_model d) c
  /\ SpringController_currentVelocity (W := spring_model d) c' =
       SpringController_currentVelocity (W := spring_model d) c.
Proof.
  cbv zeta.
  pose proof (toValue_setter_keeps (W := spring_model d)
                (fun s => (position s, velocity s)) now host v c) as K.
  cbv beta in K.
  assert (E : (position (_spring (object_after
                 (SpringController_set_toValue (W := spring_model d) now host v c))),
               velocity (_spring (object_after
                 (SpringController_set_toValue (W := spring_model d) now host v c))))
              = (position (_spring c), velocity (_spring c))).
  { apply K.
    - intros s s'. apply Spring1D_updateConfig_kinetic.
    - intros s. apply Spring1D_start_kinetic. }
  inversion E as [[Ep Ev]].
  unfold SpringController_currentValue, SpringController_currentVelocity.
  split; assumption.
Qed.

(** C8.  With the spring of the specification, constructing a controller
    from an option object with a non-positive mass or stiffness or a negative
    damping or threshold throws a configuration error out of the constructor:
    nothing is called after [new Spring], no controller is made, and a
    two-axis controller fails on its first axis.  The same object as a
    reconfiguration of a spring throws as well and leaves no new state. *)
Theorem invalid_configuration_throws
        (d : SpringDefaults) (now : number) (host : Host) (o : SpringOptions) :
  invalid_options o = true ->
  SpringController_new (W := spring_model d) now host (Some o) =
    (Throw ConfigurationError,
     [Host_addController; On_spring (Call_new (Some o))])
  /\
  SpringController2D_new (W := spring_model d) now host (Some o) =
    (Throw ConfigurationError,
     [OnX Host_addController;
      OnX (On_spring (Call_new (Some (xAxis_options (Some o)))))])
  /\
  (forall s : Spring1D,
     Spring_updateConfig (WobbleSpring := spring_model d) now o s =
       Throw ConfigurationError).
Proof.
  intros H. split; [| split].
  - unfold SpringController_new. cbn [Spring_new spring_model].
    unfold Spring1D_new. rewrite (invalid_options_not_valid _ _ H). reflexivity.
  - unfold SpringController2D_new, SpringController_new.
    cbn [Spring_new spring_model]. unfold Spring1D_new.
    rewrite (invalid_options_not_valid (spread_toValue (Some o) _) _)
      by (rewrite invalid_options_spread; exact H).
    reflexivity.
  - intros s. cbn [Spring_updateConfig spring_model].
    unfold Spring1D_updateConfig.
    rewrite (invalid_options_not_valid _ _ H). reflexivity.
Qed.

(** ** The properties at concrete inputs *)


(** The same retarget on a disconnected host reconfigures only; the spring
    that had settled stays idle until the host connects. *)
Example toValue_setter_on_detached_host :
  SpringController_set_toValue (W := spring_model scenario_defaults) 1016%float
      detached 0%float (mkSpringController settled 100%float) =
    (Normal tt,
     mkSpringController
       (mkSpring1D 100%float 0%float 0%float Idle (Some 1000%float)
          (merge_config (only_toValue 0%float) (config settled))
          (Some requestUpdate_of_host))
       0%float,
     [On_spring (Call_updateConfig (only_toValue 0%float))]).
Proof. reflexivity. Qed.

(** The scenario of the specification for a retarget in flight: at 40 with
    velocity 0.5 towards 100, retargeted to 0: still at 40 with velocity 0.5. *)
Example retarget_in_flight :
  let c' := object_after
              (SpringController_set_toValue (W := spring_model scenario_defaults)
                 1016%float attached 0%float
                 (mkSpringController in_flight 100%float)) in
  SpringController_currentValue (W := spring_model scenario_defaults) c' = 40%float
  /\ SpringController_currentVelocity (W := spring_model scenario_defaults) c' = 0.5%float
  /\ SpringController_toValue c' = 0%float.
Proof. repeat split. Qed.

(** The controller with one axis in flight is not at rest, and animating. *)
Example one_axis_moving :
  SpringController2D_isAtRest (W := spring_model scenario_defaults)
    x_in_flight_y_settled = false
  /\ SpringController2D_isAnimating (W := spring_model scenario_defaults)
       x_in_flight_y_settled = true
  /\ SpringController_isAtRest (W := spring_model scenario_defaults)
       (_ySpring x_in_flight_y_settled) = true.
Proof. repeat split. Qed.

(** With an engine that squares exactly, axis velocities 3 and 4 give 5. *)
Example velocity_3_4_5 :
  SpringController2D_currentVelocity (W := spring_model scenario_defaults)
    (fun b _ => (b * b)%float)
    (mkSpringController2D
       (mkSpringController
          (mkSpring1D 0%float 3%float 9%float Running None
             (default_config scenario_defaults) None) 9%float)
       (mkSpringController
          (mkSpring1D 0%float 4%float 9%float Running None
             (default_config scenario_defaults) None) 9%float)
       (mkPosition2D 9%float 9%float)) = 5%float.
Proof. reflexivity. Qed.

(** Setting the target position of that controller to (0, 50): the setter of
    the x axis returns, and then, as C4 says, the y axis has been retargeted
    to 50 and the whole setter made the calls of both axis setters. *)
Lemma toPosition_setter_on_attached_host :
  outcome (SpringController_set_toValue (W := spring_model scenario_defaults)
             1016%float attached 0%float (_xSpring x_in_flight_y_settled))
    = Normal tt
  /\
  SpringController_toValue
    (_ySpring (object_after
       (SpringController2D_set_toPosition (W := spring_model scenario_defaults)
          1016%float attached (mkPosition2D 0%float 50%float)
          x_in_flight_y_settled))) = 50%float.
Proof.
  split; [reflexivity |].
  exact (proj1 (proj2 (proj2 (proj2 (proj2 (proj2
    (toPosition_setter_stores_and_fans_out
       (W := spring_model scenario_defaults) 1016%float attached
       (mkPosition2D 0%float 50%float) x_in_flight_y_settled))) eq_refl)))).
Defined.

(** The stored target is not what the axes report: after the setter the
    target is (0, 50) and the controller is still at (40, 100). *)
Example toPosition_is_stored :
  let c' := object_after
              (SpringController2D_set_toPosition (W := spring_model scenario_defaults)
                 1016%float attached (mkPosition2D 0%float 50%float)
                 x_in_flight_y_settled) in
  SpringController2D_toPosition c' = mkPosition2D 0%float 50%float
  /\ SpringController2D_currentPosition (W := spring_model scenario_defaults) c'
     = mkPosition2D 40%float 100%float.
Proof. repeat split. Qed.


(** Both axes of that controller start at the default starting value 100,
    not at 7 and 9, and fly towards 30 and 60. *)
Example fromPosition_is_not_the_start :
  exists c2 tr,
    SpringController2D_new (W := spring_model scenario_defaults) 0%float attached
      (Some (with_fromPosition (Some (mkPosition2D 7%float 9%float)) towards_30_60))
    = (Normal c2, tr)
    /\ SpringController2D_currentPosition (W := spring_model scenario_defaults) c2
       = mkPosition2D 100%float 100%float
    /\ SpringController2D_toPosition c2 = mkPosition2D 30%float 60%float
    /\ SpringController_toValue (_xSpring c2) = 30%float
    /\ SpringController_toValue (_ySpring c2) = 60%float.
Proof. eexists. eexists. repeat split. Qed.

(** Constructing with no options at all: [new Spring] returns for a
    one-axis controller and for both axes of a two-axis controller, and so,
    as C10 says, both constructors return, with targets 0 and (0, 0). *)
Lemma constructed_without_target :
  omits toValue None
  /\ Spring_new (WobbleSpring := spring_model scenario_defaults) 0%float None
     = Normal (constructed_towards 0%float)
  /\ SpringController_new (W := spring_model scenario_defaults) 0%float attached None
     = (Normal (mkSpringController fresh_spring 0%float),
        [Host_addController; On_spring (Call_new None);
         On_spring (Call_onUpdate requestUpdate_of_host)])
  /\ SpringController_toValue (mkSpringController fresh_spring 0%float) = 0%float
  /\ omits toPosition None
  /\ Spring_new (WobbleSpring := spring_model scenario_defaults) 0%float
                (Some (spread_toValue None 0%float))
     = Normal (constructed_towards 0%float)
  /\ SpringController2D_new (W := spring_model scenario_defaults) 0%float attached None
     = (Normal (two_axis_towards (mkPosition2D 0%float 0%float)),
        [OnX Host_addController;
         OnX (On_spring (Call_new (Some (spread_toValue None 0%float))));
         OnX (On_spring (Call_onUpdate requestUpdate_of_host));
         OnY Host_addController;
         OnY (On_spring (Call_new (Some (spread_toValue None 0%float))));
         OnY (On_spring (Call_onUpdate requestUpdate_of_host))])
  /\ SpringController2D_toPosition (two_axis_towards (mkPosition2D 0%float 0%float))
     = mkPosition2D 0%float 0%float.
Proof.
  split; [exact I |]. split; [reflexivity |].
  split; [| split; [| split; [exact I | split; [reflexivity |]]]].
  - exact (proj1 (proj1 (proj2 (proj2
      (default_target_is_zero (W := spring_model scenario_defaults)
         0%float attached None))) I (constructed_towards 0%float) eq_refl)).
  - exact (proj2 (proj1 (proj2 (proj2
      (default_target_is_zero (W := spring_model scenario_defaults)
         0%float attached None))) I (constructed_towards 0%float) eq_refl)).
  - exact (proj2 (proj2 (proj2
      (default_target_is_zero (W := spring_model scenario_defaults)
         0%float attached None))) I (constructed_towards 0%float) eq_refl).
Defined.

Example constructed_2D_without_target :
  exists c2 tr,
    SpringController2D_new (W := spring_model scenario_defaults) 0%float attached None
    = (Normal c2, tr)
    /\ SpringController2D_toPosition c2 = mkPosition2D 0%float 0%float.
Proof. eexists. eexists. split; reflexivity. Qed.

(** A mass of -1 is invalid, and with it, as C8 says, the constructor of a
    controller throws. *)
Lemma negative_mass_throws :
  invalid_options (with_mass (Some (-1)%float) empty_options) = true
  /\
  SpringController_new (W := spring_model scenario_defaults) 0%float attached
    (Some (with_mass (Some (-1)%float) empty_options)) =
    (Throw ConfigurationError,
     [Host_addController;
      On_spring (Call_new (Some (with_mass (Some (-1)%float) empty_options)))]).
Proof.
  split; [reflexivity |].
  exact (proj1 (invalid_configuration_throws scenario_defaults 0%float attached
                  (with_mass (Some (-1)%float) empty_options) eq_refl)).
Defined.

(** A damping of -5 is not taken for 0: the two-axis constructor throws, and
    a spring in flight refuses it as a reconfiguration. *)
Example negative_damping_throws :
  fst (SpringController2D_new (W := spring_model scenario_defaults) 0%float attached
         (Some (with_damping (Some (-5)%float) towards_30_60)))
    = Throw ConfigurationError
  /\ Spring1D_updateConfig (with_damping (Some (-5)%float) empty_options) in_flight
     = Throw ConfigurationError.
Proof. split; reflexivity. Qed.

(** ** Error paths and sequences of calls, for every spring implementation *)

Section CallProperties.

Context {S : Type} {W : WobbleSpring S}.

(** X1.  When [updateConfig] throws, the [toValue] setter throws the same
    exception after that one call: [start()] is not reached even on a
    connected host, the spring is as it was, and the new value is already
    stored, so that the getter returns a target the spring never got. *)
Theorem toValue_setter_when_updateConfig_throws
        (now : number) (host : Host) (v : number) (c : SpringController S)
        (e : Exn) :
  Spring_updateConfig now (only_toValue v) (_spring c) = Throw e ->
  SpringController_set_toValue now host v c =
    (Throw e, mkSpringController (_spring c) v,
     [On_spring (Call_updateConfig (only_toValue v))]).
Proof.
  intros H.
  unfold SpringController_set_toValue, bind, assign, call_spring.
  cbn [_spring set__toValue _toValue]. rewrite H. reflexivity.
Qed.

(** One call leaves as [_toValue] the value it assigned, or the one that was
    there. *)
Lemma act_toValue (a : Action) (c : SpringController S) :
  SpringController_toValue (object_after (act a c)) =
  last_toValue (SpringController_toValue c) [a].
Proof.
  destruct a as [now host v | now | now]; cbn [act last_toValue].
  - apply toValue_setter_target.
  - reflexivity.
  - reflexivity.
Qed.

(** X2.  After any sequence of [toValue] assignments and lifecycle hooks,
    whatever the host was at each of them and whether or not some of them
    threw, the [toValue] getter returns the value of the last assignment, and
    the value the controller had before when there was none. *)
Theorem toValue_is_the_last_one_assigned
        (l : list Action) (c : SpringController S) :
  SpringController_toValue (snd (fst (run_actions l c))) =
  last_toValue (SpringController_toValue c) l.
Proof.
  unfold run_actions. revert c.
  induction l as [| a l IH]; intros c; [reflexivity |].
  cbn [map run_calls].
  pose proof (act_toValue a c) as Ha. unfold object_after in Ha.
  destruct (act a c) as [[r c1] t1]. cbn [fst snd] in Ha.
  specialize (IH c1).
  destruct (run_calls (map act l) c1) as [[rs c2] t2]. cbn [fst snd] in *.
  rewrite IH, Ha.
  destruct a; reflexivity.
Qed.





End CallProperties.

(** ** The two-axis controller: retargets, construction and sequences *)

Section TwoAxisProperties.

Context {S : Type} {W : WobbleSpring S}.

(** The [toPosition] setter in terms of the two [toValue] setters. *)
Lemma set_toPosition_by_axis
      (now : number) (host : Host) (p : Position2D) (c : SpringController2D S) :
  SpringController2D_set_toPosition now host p c =
    match SpringController_set_toValue now host (x p) (_xSpring c) with
    | (Normal _, cx, tx) =>
        match SpringController_set_toValue now host (y p) (_ySpring c) with
        | (r, cy, ty) =>
            (r, mkSpringController2D cx cy p, map OnX tx ++ map OnY ty)
        end
    | (Throw e, cx, tx) =>
        (Throw e, mkSpringController2D cx (_ySpring c) p, map OnX tx)
    end.
Proof.
  unfold SpringController2D_set_toPosition, on_x, on_y, on_member, bind, assign.
  cbn [_xSpring _ySpring _toPosition set__toPosition set__xSpring set__ySpring].
  destruct (SpringController_set_toValue now host (x p) (_xSpring c))
    as [[[[] | e] cx] tx]; [| reflexivity].
  cbn [_xSpring _ySpring _toPosition set__toPosition set__xSpring set__ySpring].
  destruct (SpringController_set_toValue now host (y p) (_ySpring c))
    as [[r cy] ty].
  reflexivity.
Qed.

(** X4.  When [updateConfig] returns on both axes, the [toPosition] setter
    returns, both springs are the reconfigured ones, both started if the host
    is connected and neither otherwise, and the calls are made axis by axis:
    the x axis is reconfigured and started before the y axis is touched. *)
Theorem toPosition_setter_retargets_both_axes
        (now : number) (host : Host) (p : Position2D)
        (c : SpringController2D S) (sx sy : S) :
  Spring_updateConfig now (only_toValue (x p)) (_spring (_xSpring c)) = Normal sx ->
  Spring_updateConfig now (only_toValue (y p)) (_spring (_ySpring c)) = Normal sy ->
  SpringController2D_set_toPosition now host p c =
    (Normal tt,
     mkSpringController2D
       (mkSpringController (if isConnected host then Spring_start now sx else sx) (x p))
       (mkSpringController (if isConnected host then Spring_start now sy else sy) (y p))
       p,
     if isConnected host
     then [OnX (On_spring (Call_updateConfig (only_toValue (x p))));
           OnX (On_spring Call_start);
           OnY (On_spring (Call_updateConfig (only_toValue (y p))));
           OnY (On_spring Call_start)]
     else [OnX (On_spring (Call_updateConfig (only_toValue (x p))));
           OnY (On_spring (Call_updateConfig (only_toValue (y p))))]).
Proof.
  intros Hx Hy. rewrite set_toPosition_by_axis.
  unfold SpringController_set_toValue, bind, assign, call_spring, ret.
  cbn [_spring set__toValue set__spring _toValue]. rewrite Hx, Hy.
  destruct (isConnected host); reflexivity.
Qed.

(** X5.  When [updateConfig] throws on the x axis, the [toPosition] setter
    throws after that one call and never reaches the y axis: the y axis
    controller is exactly as it was, while the new target position and the
    new target of the x axis are already stored. *)
Theorem toPosition_setter_when_x_axis_throws
        (now : number) (host : Host) (p : Position2D)
        (c : SpringController2D S) (e : Exn) :
  Spring_updateConfig now (only_toValue (x p)) (_spring (_xSpring c)) = Throw e ->
  SpringController2D_set_toPosition now host p c =
    (Throw e,
     mkSpringController2D (mkSpringController (_spring (_xSpring c)) (x p))
                          (_ySpring c) p,
     [OnX (On_spring (Call_updateConfig (only_toValue (x p))))]).
Proof.
  intros Hx. rewrite set_toPosition_by_axis.
  unfold SpringController_set_toValue, bind, assign, call_spring.
  cbn [_spring set__toValue set__spring _toValue]. rewrite Hx. reflexivity.
Qed.

(** X6.  Whatever the options, a two-axis controller that the constructor
    returns has as its target position the [toPosition] of the options, (0, 0)
    without one, and each axis controller has the matching component as its
    [toValue]. *)
Theorem constructed_axes_agree_with_toPosition
        (now : number) (host : Host) (options : option SpringOptions)
        (c2 : SpringController2D S) (tr : list Event2D) :
  SpringController2D_new now host options = (Normal c2, tr) ->
  SpringController2D_toPosition c2 =
    optional toPosition (mkPosition2D 0%float 0%float) options
  /\ x_axis_agrees c2 /\ y_axis_agrees c2.
Proof.
  unfold SpringController2D_new, SpringController_new, x_axis_agrees, y_axis_agrees.
  destruct (Spring_new now (Some (spread_toValue options (x _))));
    [| discriminate].
  destruct (Spring_new now (Some (spread_toValue options (y _))));
    [| discriminate].
  intros E. inversion E. repeat split.
Qed.

(** X7.  A [toValue] among the options of a two-axis controller is never
    used: the constructor does the same with and without it, calls included.
    And constructing with no options is constructing with [{}]. *)
Theorem toValue_of_2D_options_is_overridden
        (now : number) (host : Host) (o : SpringOptions) (t : option number) :
  SpringController2D_new (S := S) now host (Some (with_toValue t o)) =
    SpringController2D_new now host (Some o)
  /\ SpringController2D_new (S := S) now host None =
       SpringController2D_new now host (Some empty_options).
Proof. split; reflexivity. Qed.

(** One call on a two-axis controller: the stored target position is the one
    it assigned, or the one that was there; the x axis keeps agreeing with it;
    the y axis does when the call returned. *)
Lemma act2D_targets (a : Action2D) (c : SpringController2D S) :
  SpringController2D_toPosition (object_after (act2D a c)) =
    last_toPosition (SpringController2D_toPosition c) [a]
  /\ (x_axis_agrees c -> x_axis_agrees (object_after (act2D a c)))
  /\ (y_axis_agrees c -> outcome (act2D a c) = Normal tt ->
      y_axis_agrees (object_after (act2D a c))).
Proof.
  unfold x_axis_agrees, y_axis_agrees, object_after, outcome.
  destruct a as [now host p | now | now]; cbn [act2D last_toPosition].
  - rewrite set_toPosition_by_axis.
    pose proof (toValue_setter_target now host (x p) (_xSpring c)) as Tx.
    pose proof (toValue_setter_target now host (y p) (_ySpring c)) as Ty.
    unfold object_after in Tx, Ty.
    destruct (SpringController_set_toValue now host (x p) (_xSpring c))
      as [[[[] | e] cx] tx]; cbn [fst snd] in Tx.
    + destruct (SpringController_set_toValue now host (y p) (_ySpring c))
        as [[r cy] ty]; cbn [fst snd] in Ty.
      cbn. repeat split; auto.
    + cbn. split; [reflexivity | split; [auto |]].
      intros _ E. discriminate E.
  - cbn. repeat split; auto.
  - cbn. repeat split; auto.
Qed.

(** X8.  After any sequence of [toPosition] assignments and lifecycle hooks
    on a two-axis controller, whether or not some of them threw, the
    [toPosition] getter returns the position of the last assignment (the one
    the controller had when there was none), and the target of the x axis is
    still its [x] component if it was at the start. *)
Theorem toPosition_is_the_last_one_assigned
        (l : list Action2D) (c : SpringController2D S) :
  SpringController2D_toPosition (snd (fst (run_actions2D l c))) =
    last_toPosition (SpringController2D_toPosition c) l
  /\ (x_axis_agrees c -> x_axis_agrees (snd (fst (run_actions2D l c)))).
Proof.
  unfold run_actions2D. revert c.
  induction l as [| a l IH]; intros c; [split; auto |].
  cbn [map run_calls].
  destruct (act2D_targets a c) as (Hp & Hx & _). unfold object_after in Hp, Hx.
  destruct (act2D a c) as [[r c1] t1]. cbn [fst snd] in Hp, Hx.
  destruct (IH c1) as (IHp & IHx).
  destruct (run_calls (map act2D l) c1) as [[rs c2] t2]. cbn [fst snd] in *.
  split.
  - rewrite IHp, Hp. destruct a; reflexivity.
  - intros H. apply IHx, Hx, H.
Qed.

(** X9.  If both axis targets agree with the stored target position and
    every call of a sequence returns, both still agree after the sequence. *)
Theorem axes_agree_while_nothing_throws
        (l : list Action2D) (c : SpringController2D S) :
  x_axis_agrees c -> y_axis_agrees c ->
  Forall (fun r => r = Normal tt) (fst (fst (run_actions2D l c))) ->
  x_axis_agrees (snd (fst (run_actions2D l c)))
  /\ y_axis_agrees (snd (fst (run_actions2D l c))).
Proof.
  unfold run_actions2D. revert c.
  induction l as [| a l IH]; intros c Hx Hy Hr; [split; assumption |].
  cbn [map run_calls] in *.
  destruct (act2D_targets a c) as (_ & Ax & Ay).
  unfold object_after, outcome in Ax, Ay.
  destruct (act2D a c) as [[r c1] t1]. cbn [fst snd] in Ax, Ay.
  specialize (IH c1).
  destruct (run_calls (map act2D l) c1) as [[rs c2] t2]. cbn [fst snd] in *.
  inversion Hr as [| r' rs' Hr1 Hrs]; subst.
  apply IH; auto.
Qed.

End TwoAxisProperties.

(** ** The sign of the scalar velocity *)

(** Rounding a non-negative result gives nothing below zero. *)
Lemma binary_round_aux_not_negative (mx ex : BinNums.Z) (lx : SpecFloat.location) :
  SFltb (binary_round_aux prec emax false mx ex lx) (S754_zero false) = false.
Proof.
  unfold binary_round_aux.
  destruct (shr_fexp prec emax mx ex lx) as [mrs' e'].
  destruct (shr_fexp prec emax _ e' loc_Exact) as [mrs'' e''].
  destruct (shr_m mrs'') as [| m | m]; try reflexivity.
  destruct (BinInt.Z.leb e'' (BinInt.Z.sub emax prec)); reflexivity.
Qed.

(** A square root in double precision is never below zero: it is NaN, a
    zero, or positive. *)
Lemma sqrt_not_negative (a : number) : (PrimFloat.sqrt a <? 0)%float = false.
Proof.
  rewrite ltb_spec, sqrt_spec.
  change (Prim2SF 0) with (S754_zero false).
  unfold SF64sqrt, SFsqrt.
  destruct (Prim2SF a) as [s | s | | s m e]; try destruct s; try reflexivity.
  destruct (SFsqrt_core_binary prec emax (BinNums.Zpos m) e) as [[mz ez] lz].
  apply binary_round_aux_not_negative.
Qed.

(** X10.  The scalar [currentVelocity] of a two-axis controller is never
    negative, whatever the two springs report and however the engine rounds
    its powers: the comparison [currentVelocity < 0] is false in every state
    (the value can be NaN). *)
Theorem currentVelocity_is_never_negative
        {S : Type} {W : WobbleSpring S}
        (exponentiate : number -> number -> number) (c : SpringController2D S) :
  (SpringController2D_currentVelocity exponentiate c <? 0)%float = false.
Proof.
  unfold SpringController2D_currentVelocity. apply sqrt_not_negative.
Qed.

(** ** Each axis of a two-axis controller is a one-axis controller *)

Section AxisProjection.

Context {S : Type} {W : WobbleSpring S}.

(** One call: the x axis ends as a controller of its own would, given the x
    part of the call; so does the y axis when the call returns. *)
Lemma act2D_by_axis (a : Action2D) (c : SpringController2D S) :
  _xSpring (object_after (act2D a c)) = object_after (act (x_part a) (_xSpring c))
  /\ (outcome (act2D a c) = Normal tt ->
      _ySpring (object_after (act2D a c)) = object_after (act (y_part a) (_ySpring c))).
Proof.
  unfold object_after, outcome.
  destruct a as [now host p | now | now]; cbn [act2D act x_part y_part].
  - rewrite set_toPosition_by_axis.
    destruct (SpringController_set_toValue now host (x p) (_xSpring c))
      as [[[[] | e] cx] tx].
    + destruct (SpringController_set_toValue now host (y p) (_ySpring c))
        as [[r cy] ty].
      split; reflexivity.
    + split; [reflexivity |]. intros E. discriminate E.
  - split; reflexivity.
  - split; reflexivity.
Qed.

(** X11.  Under any sequence of calls on a two-axis controller, the x axis
    controller ends exactly as a one-axis controller would that received the
    x parts of the calls, throws or not: nothing the y axis does reaches it.
    The y axis controller ends as a one-axis controller given the y parts,
    provided every call of the sequence returned. *)
Theorem axes_run_as_one_axis_controllers
        (l : list Action2D) (c : SpringController2D S) :
  _xSpring (snd (fst (run_actions2D l c))) =
    snd (fst (run_actions (map x_part l) (_xSpring c)))
  /\ (Forall (fun r => r = Normal tt) (fst (fst (run_actions2D l c))) ->
      _ySpring (snd (fst (run_actions2D l c))) =
        snd (fst (run_actions (map y_part l) (_ySpring c)))).
Proof.
  unfold run_actions2D, run_actions. revert c.
  induction l as [| a l IH]; intros c; [split; reflexivity |].
  cbn [map run_calls].
  destruct (act2D_by_axis a c) as (Hx & Hy). unfold object_after, outcome in Hx, Hy.
  destruct (act2D a c) as [[r c1] t1]. cbn [fst snd] in Hx, Hy.
  destruct (act (x_part a) (_xSpring c)) as [[rx cx] tx]. cbn [fst snd] in Hx.
  destruct (act (y_part a) (_ySpring c)) as [[ry cy] ty]. cbn [fst snd] in Hy.
  destruct (IH c1) as (IHx & IHy).
  destruct (run_calls (map act2D l) c1) as [[rs c2] t2].
  subst cx. 
  destruct (run_calls (map act (map x_part l)) (_xSpring c1)) as [[rsx cx2] tx2].
  cbn [fst snd] in *.
  split; [exact IHx |].
  intros Hr. inversion Hr as [| r' rs' Hr1 Hrs]; subst.
  rewrite <- (Hy eq_refl).
  destruct (run_calls (map act (map y_part l)) (_ySpring c1)) as [[rsy cy2] ty2].
  cbn [fst snd] in *. apply IHy. exact Hrs.
Qed.

End AxisProjection.

(** ** The error paths and the sequences at concrete inputs *)

(** The model refuses to reconfigure the massless spring, and the setter then
    does what X1 says, on a connected host. *)
Lemma retarget_of_massless_spring :
  Spring_updateConfig (WobbleSpring := spring_model scenario_defaults) 1016%float
      (only_toValue 0%float) massless = Throw ConfigurationError
  /\
  SpringController_set_toValue (W := spring_model scenario_defaults) 1016%float
      attached 0%float (mkSpringController massless 100%float) =
    (Throw ConfigurationError, mkSpringController massless 0%float,
     [On_spring (Call_updateConfig (only_toValue 0%float))]).
Proof.
  split; [reflexivity |].
  exact (toValue_setter_when_updateConfig_throws
           (W := spring_model scenario_defaults) 1016%float attached 0%float
           (mkSpringController massless 100%float) ConfigurationError eq_refl).
Defined.

(** A sequence of four calls: the getter ends on 50, the last value assigned. *)
Example toValue_after_some_actions :
  SpringController_toValue
    (snd (fst (run_actions (W := spring_model scenario_defaults) some_actions
                 (mkSpringController settled 100%float)))) = 50%float
  /\ snd (run_actions (W := spring_model scenario_defaults) some_actions
            (mkSpringController settled 100%float)) =
     [On_spring (Call_updateConfig (only_toValue 0%float));
      On_spring Call_start;
      On_spring (Call_updateConfig (only_toValue 50%float));
      On_spring Call_start;
      On_spring Call_stop].
Proof. split; reflexivity. Qed.

(** Retargeting the controller with one axis in flight to (0, 50) on a
    connected host: both reconfigurations return, and the setter does what
    X4 says. *)
Lemma toPosition_setter_starts_both_axes :
  exists sx sy,
    Spring_updateConfig (WobbleSpring := spring_model scenario_defaults) 1016%float
        (only_toValue 0%float) (_spring (_xSpring x_in_flight_y_settled)) = Normal sx
    /\ Spring_updateConfig (WobbleSpring := spring_model scenario_defaults) 1016%float
        (only_toValue 50%float) (_spring (_ySpring x_in_flight_y_settled)) = Normal sy
    /\ SpringController2D_set_toPosition (W := spring_model scenario_defaults)
         1016%float attached (mkPosition2D 0%float 50%float) x_in_flight_y_settled =
       (Normal tt,
        mkSpringController2D
          (mkSpringController (Spring1D_start 1016%float sx) 0%float)
          (mkSpringController (Spring1D_start 1016%float sy) 50%float)
          (mkPosition2D 0%float 50%float),
        [OnX (On_spring (Call_updateConfig (only_toValue 0%float)));
         OnX (On_spring Call_start);
         OnY (On_spring (Call_updateConfig (only_toValue 50%float)));
         OnY (On_spring Call_start)]).
Proof.
  eexists. eexists. split; [reflexivity | split; [reflexivity |]].
  exact (toPosition_setter_retargets_both_axes
           (W := spring_model scenario_defaults) 1016%float attached
           (mkPosition2D 0%float 50%float) x_in_flight_y_settled _ _
           eq_refl eq_refl).
Defined.

(** With the massless spring on the x axis the reconfiguration of that axis
    throws, and the setter does what X5 says. *)
Lemma toPosition_setter_with_massless_x_axis :
  Spring_updateConfig (WobbleSpring := spring_model scenario_defaults) 1016%float
      (only_toValue 0%float) (_spring (_xSpring x_massless)) = Throw ConfigurationError
  /\
  SpringController2D_set_toPosition (W := spring_model scenario_defaults)
      1016%float attached (mkPosition2D 0%float 50%float) x_massless =
    (Throw ConfigurationError,
     mkSpringController2D (mkSpringController massless 0%float)
                          (mkSpringController settled 100%float)
                          (mkPosition2D 0%float 50%float),
     [OnX (On_spring (Call_updateConfig (only_toValue 0%float)))]).
Proof.
  split; [reflexivity |].
  exact (toPosition_setter_when_x_axis_throws
           (W := spring_model scenario_defaults) 1016%float attached
           (mkPosition2D 0%float 50%float) x_massless ConfigurationError eq_refl).
Defined.

(** After that throw the stored target position says 50 for the y axis while
    the y axis controller still has 100. *)
Example y_axis_left_behind :
  ~ y_axis_agrees
      (object_after
         (SpringController2D_set_toPosition (W := spring_model scenario_defaults)
            1016%float attached (mkPosition2D 0%float 50%float) x_massless)).
Proof.
  unfold y_axis_agrees. cbn. intros E.
  apply (f_equal (fun z => PrimFloat.eqb z 50%float)) in E.
  cbv in E. discriminate E.
Qed.

(** The constructor returns for [{toPosition: {x: 30, y: 60}}], and then, as
    X6 says, the target position is (30, 60) and both axes agree with it. *)
Lemma constructed_towards_30_60 :
  exists c2 tr,
    SpringController2D_new (W := spring_model scenario_defaults) 0%float attached
      (Some towards_30_60) = (Normal c2, tr)
    /\ SpringController2D_toPosition c2 = mkPosition2D 30%float 60%float
    /\ x_axis_agrees c2 /\ y_axis_agrees c2.
Proof.
  eexists. eexists. split; [reflexivity |].
  exact (constructed_axes_agree_with_toPosition
           (W := spring_model scenario_defaults) 0%float attached
           (Some towards_30_60) _ _ eq_refl).
Defined.

(** The x axis of the controller with one axis in flight agrees with the
    stored target, and, as X8 says, still does after four calls. *)
Lemma x_axis_agrees_after_some_actions :
  x_axis_agrees x_in_flight_y_settled
  /\ x_axis_agrees
       (snd (fst (run_actions2D (W := spring_model scenario_defaults)
                    some_actions2D x_in_flight_y_settled))).
Proof.
  split; [reflexivity |].
  exact (proj2 (toPosition_is_the_last_one_assigned
                  (W := spring_model scenario_defaults)
                  some_actions2D x_in_flight_y_settled) eq_refl).
Defined.

(** All four calls return, and, as X9 says, both axes agree at the end. *)
Lemma axes_agree_after_some_actions :
  Forall (fun r => r = Normal tt)
         (fst (fst (run_actions2D (W := spring_model scenario_defaults)
                      some_actions2D x_in_flight_y_settled)))
  /\ x_axis_agrees
       (snd (fst (run_actions2D (W := spring_model scenario_defaults)
                    some_actions2D x_in_flight_y_settled)))
  /\ y_axis_agrees
       (snd (fst (run_actions2D (W := spring_model scenario_defaults)
                    some_actions2D x_in_flight_y_settled))).
Proof.
  assert (H : Forall (fun r => r = Normal tt)
                (fst (fst (run_actions2D (W := spring_model scenario_defaults)
                             some_actions2D x_in_flight_y_settled)))).
  { cbv. repeat constructor. }
  split; [exact H |].
  exact (axes_agree_while_nothing_throws
           (W := spring_model scenario_defaults)
           some_actions2D x_in_flight_y_settled eq_refl eq_refl H).
Defined.

(** All four calls return, and, as X11 says, the y axis ends as a one-axis
    controller given the y parts of the calls. *)
Lemma y_axis_after_some_actions :
  Forall (fun r => r = Normal tt)
         (fst (fst (run_actions2D (W := spring_model scenario_defaults)
                      some_actions2D x_in_flight_y_settled)))
  /\ _ySpring
       (snd (fst (run_actions2D (W := spring_model scenario_defaults)
                    some_actions2D x_in_flight_y_settled))) =
     snd (fst (run_actions (W := spring_model scenario_defaults)
                 (map y_part some_actions2D)
                 (_ySpring x_in_flight_y_settled))).
Proof.
  assert (H : Forall (fun r => r = Normal tt)
                (fst (fst (run_actions2D (W := spring_model scenario_defaults)
                             some_actions2D x_in_flight_y_settled)))).
  { cbv. repeat constructor. }
  split; [exact H |].
  exact (proj2 (axes_run_as_one_axis_controllers
                  (W := spring_model scenario_defaults)
                  some_actions2D x_in_flight_y_settled) H).
Defined.
